(** * yt-dlp-api: the gateway of [main.py], embedded and verified

    The development follows [src/main.py]: the [YouTubeDownloader] class
    ([get_video_info], [format_size], [download_video]), the
    [ConnectionManager] ([connect], [disconnect], [send_progress]) and the
    [websocket_endpoint] handler.  Python dictionaries are finite maps,
    exceptions are an error outcome, and the side effects of the handlers
    (socket writes, sleeps, calls to the extraction engine) are recorded in
    an explicit trace threaded through a state-and-error monad. *)

From Stdlib Require Import ZArith Lia List Ascii String DecimalString.
From stdpp Require Import base option list gmap strings.

Local Open Scope string_scope.
Local Open Scope Z_scope.

(** ** Python values *)

(** The scalar values found in the fields of the engine's dictionaries and
    of the inbound JSON messages.  A Python [str] is held as the bytes of
    its UTF-8 encoding. *)
Inductive Scalar :=
  | SNone
  | SBool (b : bool)
  | SInt (n : Z)
  | SStr (s : string).

#[global] Instance Scalar_eq_dec : EqDecision Scalar.
Proof. solve_decision. Defined.

(** A Python [dict] with string keys and scalar values. *)
Abbreviation Dict := (gmap string Scalar).

(** [d.get(k)]: the value, or [None] when the key is absent. *)
Definition py_get (d : Dict) (k : string) : Scalar :=
  default SNone (d !! k).

(** [d.get(k, dflt)]. *)
Definition py_get_default (d : Dict) (k : string) (dflt : Scalar) : Scalar :=
  default dflt (d !! k).

(** Truth value of a scalar, as tested by [if x] and [not x]. *)
Definition truthy (v : Scalar) : bool :=
  match v with
  | SNone => false
  | SBool b => b
  | SInt n => negb (n =? 0)
  | SStr s => negb (String.eqb s EmptyString)
  end.

Definition string_of_Z (n : Z) : string :=
  NilZero.string_of_int (Z.to_int n).

(** [str(v)], which is also what an f-string field [{v}] renders. *)
Definition py_str (v : Scalar) : string :=
  match v with
  | SNone => "None"
  | SBool true => "True"
  | SBool false => "False"
  | SInt n => string_of_Z n
  | SStr s => s
  end.

(** ** Exceptions and outcomes *)

Inductive Exn :=
  | HTTPException (status_code : Z) (detail : string)
  | WebSocketDisconnect
  | KeyError (key : string)
  | TypeError (msg : string)
  | AttributeError (msg : string)
  | OverflowError (msg : string)
  | DownloadError (msg : string)
  | UnicodeEncodeError (msg : string).

Definition squote : string := String "039"%char EmptyString.
Definition dquote : string := String "034"%char EmptyString.

(** [str(e)] for an exception [e]. *)
Definition exn_str (e : Exn) : string :=
  match e with
  | HTTPException c d => string_of_Z c ++ ": " ++ d
  | WebSocketDisconnect => EmptyString
  | KeyError k => squote ++ k ++ squote
  | TypeError m => m
  | AttributeError m => m
  | OverflowError m => m
  | DownloadError m => m
  | UnicodeEncodeError m => m
  end.

Inductive Outcome (A : Type) :=
  | Return (a : A)
  | Raise (e : Exn).
Arguments Return {A} a.
Arguments Raise {A} e.

(** ** [format_size] (main.py, lines 67-75) *)

Module Float.

(** A binary64 value that arises in [format_size]: the exact dyadic
    rational [fnum / fden], where [fden] is a power of 1024.  Division of
    a double that is at least 1024 by [1024.0] is exact, so the pair is
    the double itself and not an approximation of it. *)
Record t := mk { fnum : Z; fden : Z }.

(** Round [n] to 53 significant bits, ties to even: the integer value of
    [float(n)] for [0 <= n]. *)
Definition round53 (n : Z) : Z :=
  if n <? 2 ^ 53 then n
  else
    let e := Z.log2 n - 52 in
    let q := n / 2 ^ e in
    let r := n mod 2 ^ e in
    let half := 2 ^ (e - 1) in
    if (half <? r) || ((r =? half) && Z.odd q)
    then (q + 1) * 2 ^ e else q * 2 ^ e.

(** [float(n)] for a Python int; ints that round to [2^1024] or beyond
    raise [OverflowError]. *)
Definition of_int (n : Z) : Outcome t :=
  if 2 ^ 1024 - 2 ^ 970 <=? Z.abs n
  then Raise (OverflowError "int too large to convert to float")
  else Return (mk (Z.sgn n * round53 (Z.abs n)) 1).

(** [x < 1024.0] *)
Definition lt_1024 (x : t) : bool := fnum x <? 1024 * fden x.

(** [x / 1024.0] *)
Definition div_1024 (x : t) : t := mk (fnum x) (fden x * 1024).

(** Nearest integer to [a / b] for [0 <= a], [0 < b], ties to even. *)
Definition round_half_even (a b : Z) : Z :=
  let q := a / b in
  let r := a mod b in
  if (b <? 2 * r) || ((2 * r =? b) && Z.odd q) then q + 1 else q.

(** The number of hundredths shown by [f"{x:.2f}"], in absolute value. *)
Definition hundredths (x : t) : Z :=
  round_half_even (100 * Z.abs (fnum x)) (fden x).

Definition two_digits (n : Z) : string :=
  string_of_Z (n / 10) ++ string_of_Z (n mod 10).

(** The text of a non-negative count [h] of hundredths with two
    fractional digits. *)
Definition fixed2 (h : Z) : string :=
  string_of_Z (h / 100) ++ "." ++ two_digits (h mod 100).

(** [f"{x:.2f}"] *)
Definition format_2f (x : t) : string :=
  (if fnum x <? 0 then "-" else EmptyString) ++ fixed2 (hundredths x).

End Float.

(** The [for unit in [...]] loop with its fall-through [return]. *)
Fixpoint format_size_loop (units : list string) (size_bytes : Float.t) : string :=
  match units with
  | [] => Float.format_2f size_bytes ++ " TB"
  | unit :: rest =>
      if Float.lt_1024 size_bytes
      then Float.format_2f size_bytes ++ " " ++ unit
      else format_size_loop rest (Float.div_1024 size_bytes)
  end.

Definition format_size (size_bytes : Scalar) : Outcome string :=
  if negb (truthy size_bytes) then Return "N/A"
  else
    match size_bytes with
    | SInt n =>
        match Float.of_int n with
        | Return x => Return (format_size_loop ["B"; "KB"; "MB"; "GB"] x)
        | Raise e => Raise e
        end
    | SBool _ =>
        Return (format_size_loop ["B"; "KB"; "MB"; "GB"] (Float.mk 1 1))
    | _ =>
        Raise (TypeError
          ("'<' not supported between instances of 'str' and 'float'"))
    end.

(** ** The world: the connection table and the observable effects *)

(** A websocket object, identified by a handle. *)
Definition WebSocket := nat.

(** The JSON objects written to a websocket: the key order of the
    dictionary literal is kept, and a value is a scalar or a nested
    dictionary (the ["data"] summary). *)
Inductive MsgVal :=
  | MScalar (v : Scalar)
  | MDict (d : list (string * Scalar)).

Definition Message := list (string * MsgVal).

Inductive Effect :=
  | EAccept (ws : WebSocket)
  | ESendJson (ws : WebSocket) (message : Message)
  | ESleep
  | EExtractInfo (ydl_opts : Dict) (url : Scalar)
  | EPrint (line : string).

(** [active_connections] is the only field of the [ConnectionManager];
    [trace] lists the effects performed so far, oldest first. *)
Record World := mkWorld {
  active_connections : gmap string WebSocket;
  trace : list Effect;
}.

(** ** The monad of handlers: state and exceptions *)

Definition M (A : Type) : Type := World → Outcome A * World.

#[global] Instance Outcome_ret : MRet Outcome := λ A a, Return a.
#[global] Instance Outcome_bind : MBind Outcome := λ A B f o,
  match o with
  | Return a => f a
  | Raise e => Raise e
  end.

#[global] Instance M_ret : MRet M := λ A a w, (Return a, w).
#[global] Instance M_bind : MBind M := λ A B f m w,
  match m w with
  | (Return a, w') => f a w'
  | (Raise e, w') => (Raise e, w')
  end.

Definition raise {A} (e : Exn) : M A := λ w, (Raise e, w).

(** A pure, fallible computation run inside a handler. *)
Definition lift {A} (o : Outcome A) : M A := λ w, (o, w).

(** [try: body  except Exception as e: handler(e)]. *)
Definition try_except {A} (body : M A) (handler : Exn → M A) : M A := λ w,
  match body w with
  | (Return a, w') => (Return a, w')
  | (Raise e, w') => handler e w'
  end.

Definition perform (e : Effect) : M unit := λ w,
  (Return (), mkWorld (active_connections w) (trace w ++ [e])).

Definition get_connections : M (gmap string WebSocket) := λ w,
  (Return (active_connections w), w).

Definition set_connections (t : gmap string WebSocket) : M unit := λ w,
  (Return (), mkWorld t (trace w)).

(** [for x in xs: body(x)] *)
Fixpoint for_ {A} (xs : list A) (body : A → M unit) : M unit :=
  match xs with
  | [] => mret ()
  | x :: rest => body x;; for_ rest body
  end.

(** ** The extraction engine (the [yt_dlp] package) *)

Definition Chunk := list Byte.byte.

(** The [info] dictionary of [extract_info]: its scalar fields, and the
    list under ['formats'] when that key is present. *)
Record Info := mkInfo {
  fields : Dict;
  formats_field : option (list Dict);
}.

(** What this program uses of the engine.  A [YoutubeDL] object is
    determined by the options it was built with. *)
Record Engine := mkEngine {
  (** [yt_dlp.YoutubeDL(opts).extract_info(url, download=False)] *)
  extract_info : Dict → Scalar → Outcome Info;
  (** the attribute names that resolve on a [YoutubeDL] object *)
  instance_has_attr : string → bool;
  (** the chunks of [YoutubeDL(opts).stream(url)] in the order produced, and
      how the iteration ends *)
  stream : Dict → Scalar → list Chunk * Outcome unit;
}.

(** ** [ConnectionManager] (main.py, lines 111-125) *)

Definition connect (websocket : WebSocket) (client_id : string) : M unit :=
  perform (EAccept websocket);;
  conns ← get_connections;
  set_connections (<[client_id := websocket]> conns).

Definition disconnect (client_id : string) : M unit :=
  conns ← get_connections;
  match conns !! client_id with
  | Some _ => set_connections (delete client_id conns)
  | None => mret ()
  end.

Definition send_progress (client_id : string) (message : Message) : M unit :=
  conns ← get_connections;
  match conns !! client_id with
  | Some websocket => perform (ESendJson websocket message)
  | None => mret ()
  end.

(** ** The dictionaries built by [get_video_info] *)

(** One entry of the ['formats'] list (main.py, lines 42-49). *)
Module Variant.
Record t := mk {
  format_id : Scalar;
  ext : Scalar;
  resolution : Scalar;
  filesize : Scalar;
  filesize_fmt : string;
  note : Scalar;
}.
End Variant.

(** The dictionary returned by [get_video_info] (main.py, lines 51-63). *)
Module VideoInfo.
Record t := mk {
  id : Scalar;
  title : Scalar;
  thumbnail : Scalar;
  duration : Scalar;
  duration_string : Scalar;
  uploader : Scalar;
  formats : list Variant.t;
  webpage_url : Scalar;
  description : Scalar;
  view_count : Scalar;
  like_count : Scalar;
}.
End VideoInfo.

(** The response object of [download_video] (main.py, lines 97-104).  The
    body is a generator: [body_iterator] is what iterating it yields and how
    the iteration ends. *)
Record StreamingResponse := mkStreamingResponse {
  body_iterator : list Chunk * Outcome unit;
  media_type : string;
  headers : list (string * Scalar);
}.

(** [d[k]], raising [KeyError] on an absent key. *)
Definition py_getitem (d : Dict) (k : string) : Outcome Scalar :=
  match d !! k with
  | Some v => Return v
  | None => Raise (KeyError k)
  end.

(** [a or b] *)
Definition py_or (a b : Scalar) : Scalar := if truthy a then a else b.

(** ** Response headers: [str.encode("latin-1")] *)

Module Latin1.

(** The code points of a [str], decoded from its UTF-8 bytes: [pending]
    continuation bytes are still to come for the code point begun in
    [acc]. *)
Fixpoint code_points (s : string) (pending : nat) (acc : Z) : list Z :=
  match s with
  | EmptyString => []
  | String c rest =>
      let b := Z.of_N (N_of_ascii c) in
      match pending with
      | O =>
          if b <? 128 then b :: code_points rest 0 0
          else if b <? 224 then code_points rest 1 (b mod 32)
          else if b <? 240 then code_points rest 2 (b mod 16)
          else code_points rest 3 (b mod 8)
      | S O => (acc * 64 + b mod 64) :: code_points rest 0 0
      | S p => code_points rest p (acc * 64 + b mod 64)
      end
  end.

Definition hex_digit (d : Z) : string :=
  String (nth (Z.to_nat d)
            ["0"; "1"; "2"; "3"; "4"; "5"; "6"; "7"; "8"; "9";
             "a"; "b"; "c"; "d"; "e"; "f"]%char "0"%char) EmptyString.

(** [n] in lower-case hexadecimal, on [width] digits. *)
Fixpoint hex (width : nat) (n : Z) : string :=
  match width with
  | O => EmptyString
  | S w => hex w (n / 16) ++ hex_digit (n mod 16)
  end.

(** The escape of a code point above 255 in the codec's message. *)
Definition escape (cp : Z) : string :=
  if cp <=? 65535 then "\u" ++ hex 4 cp else "\U" ++ hex 8 cp.

(** The number of leading code points that do not fit in one byte. *)
Fixpoint run_length (cps : list Z) : Z :=
  match cps with
  | cp :: rest => if 256 <=? cp then 1 + run_length rest else 0
  | [] => 0
  end.

(** The [UnicodeEncodeError] text for the first run of code points above
    255, which starts at position [pos]; [None] when all fit. *)
Fixpoint error_from (pos : Z) (cps : list Z) : option string :=
  match cps with
  | [] => None
  | cp :: rest =>
      if 256 <=? cp then
        Some ("'latin-1' codec can't encode "
              ++ (if run_length rest =? 0
                  then "character '" ++ escape cp ++ "' in position "
                       ++ string_of_Z pos
                  else "characters in position " ++ string_of_Z pos ++ "-"
                       ++ string_of_Z (pos + run_length rest))
              ++ ": ordinal not in range(256)")
      else error_from (pos + 1) rest
  end.

(** [v.encode("latin-1")], for its failures: a value that is not a [str]
    has no [encode], and a [str] with a code point above 255 does not
    encode. *)
Definition encode (v : Scalar) : Outcome unit :=
  match v with
  | SStr s =>
      match error_from 0 (code_points s 0 0) with
      | None => Return ()
      | Some msg => Raise (UnicodeEncodeError msg)
      end
  | SNone =>
      Raise (AttributeError "'NoneType' object has no attribute 'encode'")
  | SBool _ =>
      Raise (AttributeError "'bool' object has no attribute 'encode'")
  | SInt _ =>
      Raise (AttributeError "'int' object has no attribute 'encode'")
  end.

(** The header values are encoded in the order of the dictionary. *)
Fixpoint encode_headers (headers : list (string * Scalar)) : Outcome unit :=
  match headers with
  | [] => Return ()
  | (_, v) :: rest => encode v;; encode_headers rest
  end.

End Latin1.

(** [StreamingResponse(body, media_type=..., headers=...)]: the constructor
    encodes every header value as latin-1 and fails when one does not
    encode. *)
Definition StreamingResponse_init (body : list Chunk * Outcome unit)
    (media : string) (hdrs : list (string * Scalar))
    : Outcome StreamingResponse :=
  Latin1.encode_headers hdrs;;
  Return (mkStreamingResponse body media hdrs).

Section YouTubeDownloader.

Variable engine : Engine.

(** [with yt_dlp.YoutubeDL(opts) as ydl: ydl.extract_info(url, download=False)] *)
Definition ydl_extract_info (opts : Dict) (url : Scalar) : M Info :=
  perform (EExtractInfo opts url);;
  lift (extract_info engine opts url).

(** [self.ydl_opts] (main.py, lines 26-31) *)
Definition self_ydl_opts : Dict :=
  list_to_map
    [("quiet", SBool true); ("no_warnings", SBool true);
     ("extract_flat", SBool false); ("force_generic_extractor", SBool false)].

(** The loop of lines 40-49, with [formats] the list built so far. *)
Fixpoint collect_formats (fs : list Dict) (formats : list Variant.t)
    : Outcome (list Variant.t) :=
  match fs with
  | [] => Return formats
  | f :: rest =>
      if truthy (py_get f "ext") then
        size_fmt ← format_size (py_get f "filesize");
        collect_formats rest
          (formats ++
           [Variant.mk (py_get f "format_id") (py_get f "ext")
              (py_get_default f "resolution" (SStr "N/A"))
              (py_get f "filesize") size_fmt
              (py_get_default f "format_note" (SStr "N/A"))])
      else collect_formats rest formats
  end.

Definition get_video_info (url : Scalar) : M VideoInfo.t :=
  try_except
    (info ← ydl_extract_info self_ydl_opts url;
     formats ← lift (collect_formats (default [] (formats_field info)) []);
     mret (VideoInfo.mk
             (py_get (fields info) "id")
             (py_get (fields info) "title")
             (py_get (fields info) "thumbnail")
             (py_get (fields info) "duration")
             (py_get (fields info) "duration_string")
             (py_get (fields info) "uploader")
             formats
             (py_get (fields info) "webpage_url")
             (py_get (fields info) "description")
             (py_get (fields info) "view_count")
             (py_get (fields info) "like_count")))
    (λ e, raise (HTTPException 400
                   ("Error getting video info: " ++ exn_str e))).

(** The options of [download_video] (main.py, lines 79-85). *)
Definition download_ydl_opts (format_id : Scalar) : Dict :=
  list_to_map
    [("format", py_or format_id (SStr "best"));
     ("quiet", SBool true); ("no_warnings", SBool true);
     ("outtmpl", SStr "-"); ("buffer_size", SInt (1024 * 1024))].

(** [for chunk in upstream: yield chunk] *)
Fixpoint yield_each (upstream : list Chunk) : list Chunk :=
  match upstream with
  | [] => []
  | chunk :: rest => chunk :: yield_each rest
  end.

Definition no_attribute (attr : string) : Exn :=
  AttributeError
    (squote ++ "YoutubeDL" ++ squote ++ " object has no attribute "
     ++ squote ++ attr ++ squote).

(** Iterating [generate()] (main.py, lines 92-95).  [ydl] is the
    [YoutubeDL] object bound on line 88, so [ydl.YoutubeDL] and
    [ydl_instance.stream] are attribute lookups on such an object. *)
Definition generate (ydl_opts : Dict) (url : Scalar)
    : list Chunk * Outcome unit :=
  if instance_has_attr engine "YoutubeDL" then
    if instance_has_attr engine "stream" then
      (yield_each (fst (stream engine ydl_opts url)),
       snd (stream engine ydl_opts url))
    else ([], Raise (no_attribute "stream"))
  else ([], Raise (no_attribute "YoutubeDL")).

Definition download_video (url : Scalar) (format_id : Scalar)
    : M StreamingResponse :=
  let ydl_opts := download_ydl_opts format_id in
  try_except
    (info ← ydl_extract_info ydl_opts url;
     title ← lift (py_getitem (fields info) "title");
     ext ← lift (py_getitem (fields info) "ext");
     let filename := py_str title ++ "." ++ py_str ext in
     lift (StreamingResponse_init
             (generate ydl_opts url)
             (if decide (py_get (fields info) "ext" = SStr "mp4")
              then "video/mp4" else "application/octet-stream")
             [("Content-Disposition",
               SStr ("attachment; filename=" ++ dquote ++ filename ++ dquote));
              ("X-Video-Title",
               py_get_default (fields info) "title" (SStr "video"))]))
    (λ e, raise (HTTPException 400 ("Download error: " ++ exn_str e))).

(** [GET /api/download] (main.py, lines 139-142) *)
Definition download (url : string) (format : Scalar) : M StreamingResponse :=
  download_video (SStr url) format.

(** ** [websocket_endpoint] (main.py, lines 148-188) *)

Definition progress_message (text : string) (progress : Z) : Message :=
  [("type", MScalar (SStr "progress"));
   ("message", MScalar (SStr text));
   ("progress", MScalar (SInt progress))].

Definition complete_message (info : VideoInfo.t) : Message :=
  [("type", MScalar (SStr "complete"));
   ("message", MScalar (SStr "Download complete!"));
   ("data", MDict
      [("title", VideoInfo.title info);
       ("duration", VideoInfo.duration_string info);
       ("formats", SInt (Z.of_nat (length (VideoInfo.formats info))))])].

(** The message of the [i]-th simulated tick (main.py, lines 169-173). *)
Definition tick_message (i : Z) : Message :=
  progress_message ("Downloading... " ++ string_of_Z (i * 10) ++ "%")
    (i * 10).

(** One simulated tick, the body of [for i in range(1, 11)]. *)
Definition tick (client_id : string) (i : Z) : M unit :=
  perform ESleep;;
  send_progress client_id (tick_message i).

(** The body of the [while True] loop for one received message [data]
    (main.py, lines 154-184). *)
Definition on_message (client_id : string) (data : Dict) : M unit :=
  if decide (py_get data "type" = SStr "download") then
    let url := py_get data "url" in
    let format_id := py_get data "format" in
    send_progress client_id (progress_message "Starting download..." 0);;
    for_ (seqZ 1 10) (tick client_id);;
    info ← get_video_info url;
    send_progress client_id (complete_message info)
  else mret ().

(** The [while True] loop.  [inbox] lists the messages that
    [receive_json] returns, in order; once it is exhausted the peer has
    gone and [receive_json] raises [WebSocketDisconnect]. *)
Fixpoint receive_loop (client_id : string) (inbox : list Dict) : M unit :=
  match inbox with
  | [] => raise WebSocketDisconnect
  | data :: rest => on_message client_id data;; receive_loop client_id rest
  end.

Definition websocket_endpoint (websocket : WebSocket) (client_id : string)
    (inbox : list Dict) : M unit :=
  connect websocket client_id;;
  try_except (receive_loop client_id inbox)
    (λ e, match e with
          | WebSocketDisconnect =>
              disconnect client_id;;
              perform (EPrint ("Client " ++ client_id ++ " disconnected"))
          | _ => raise e
          end).

End YouTubeDownloader.

(** ** Observations on a run *)

(** Appending effects to the trace of a world. *)
Definition record (w : World) (es : list Effect) : World :=
  mkWorld (active_connections w) (trace w ++ es).

(** The messages written to websocket [ws] in a trace, in order. *)
Definition sent_to (ws : WebSocket) (tr : list Effect) : list Message :=
  omap (λ e, match e with
             | ESendJson ws' m => if decide (ws' = ws) then Some m else None
             | _ => None
             end) tr.


(** The effects of the simulated progress run towards [ws]: the starting
    message and the ten ticks. *)
Definition tick_effects (ws : WebSocket) (ticks : list Z) : list Effect :=
  flat_map (λ i, [ESleep; ESendJson ws (tick_message i)]) ticks.

Definition progress_run (ws : WebSocket) : list Effect :=
  ESendJson ws (progress_message "Starting download..." 0)
  :: tick_effects ws (seqZ 1 10).

(** What [get_video_info] computes, apart from the trace. *)
Definition video_info_of (info : Info) : Outcome VideoInfo.t :=
  formats ← collect_formats (default [] (formats_field info)) [];
  Return (VideoInfo.mk
            (py_get (fields info) "id")
            (py_get (fields info) "title")
            (py_get (fields info) "thumbnail")
            (py_get (fields info) "duration")
            (py_get (fields info) "duration_string")
            (py_get (fields info) "uploader")
            formats
            (py_get (fields info) "webpage_url")
            (py_get (fields info) "description")
            (py_get (fields info) "view_count")
            (py_get (fields info) "like_count")).

Definition get_video_info_result (engine : Engine) (url : Scalar)
    : Outcome VideoInfo.t :=
  match extract_info engine self_ydl_opts url ≫= video_info_of with
  | Return v => Return v
  | Raise e => Raise (HTTPException 400
                        ("Error getting video info: " ++ exn_str e))
  end.

(** ** The Progress Protocol of the specification *)

Inductive ProgressEvent :=
  | Started
  | Progress (percent : Z)
  | Completed (summary : list (string * Scalar))
  | Failed (reason : string).

Definition msg_get (m : Message) (k : string) : option MsgVal :=
  snd <$> find (λ kv, String.eqb (fst kv) k) m.

Definition msg_text (m : Message) : string :=
  match msg_get m "message" with
  | Some (MScalar (SStr s)) => s
  | _ => EmptyString
  end.

(** How a JSON message on the wire reads as a protocol event: a
    ["progress"] message is [Started] when it is the starting message and
    a tick otherwise, a ["complete"] message is [Completed] with its
    ["data"], and a message of any other type counts as [Failed]. *)
Definition event_of_message (m : Message) : option ProgressEvent :=
  match msg_get m "type" with
  | Some (MScalar (SStr ty)) =>
      if String.eqb ty "progress" then
        match msg_get m "progress" with
        | Some (MScalar (SInt p)) =>
            if String.eqb (msg_text m) "Starting download..."
            then Some Started else Some (Progress p)
        | _ => None
        end
      else if String.eqb ty "complete" then
        match msg_get m "data" with
        | Some (MDict d) => Some (Completed d)
        | _ => None
        end
      else Some (Failed (msg_text m))
  | _ => None
  end.

(** The protocol events that websocket [ws] observes in a trace. *)
Definition events_seen (ws : WebSocket) (tr : list Effect)
    : list ProgressEvent :=
  omap event_of_message (sent_to ws tr).










(** ** Histories of the Channel Registry *)

Inductive RegistryOp :=
  | OpConnect (websocket : WebSocket) (client_id : string)
  | OpDisconnect (client_id : string).

Definition op_id (op : RegistryOp) : string :=
  match op with OpConnect _ i => i | OpDisconnect i => i end.

Definition run_op (op : RegistryOp) : M unit :=
  match op with
  | OpConnect ws i => connect ws i
  | OpDisconnect i => disconnect i
  end.

(** The most recent operation on [i] in a history (oldest first). *)
Fixpoint most_recent_op (i : string) (ops : list RegistryOp)
    : option RegistryOp :=
  match ops with
  | [] => None
  | op :: rest =>
      match most_recent_op i rest with
      | Some o => Some o
      | None => if decide (op_id op = i) then Some op else None
      end
  end.

(** The manager as created on line 127: no connection yet. *)
Definition fresh_manager (tr : list Effect) : World := mkWorld ∅ tr.

(** ** The size bands of the specification *)

(** The index of the unit band of [s]: 0 for B, ..., 4 for TB. *)
Definition band (s : Z) : Z :=
  if s <? 1024 then 0
  else if s <? 1024 ^ 2 then 1
  else if s <? 1024 ^ 3 then 2
  else if s <? 1024 ^ 4 then 3
  else 4.

Definition unit_name (k : Z) : string :=
  if k =? 0 then "B" else if k =? 1 then "KB" else if k =? 2 then "MB"
  else if k =? 3 then "GB" else "TB".

(** The size formatter as the specification states it for a present size
    [s]: a two-digit rendering in the band of [s], within 0.01 of
    [s / 1024^k], and never the placeholder. *)
Definition formats_in_band (s : Z) : Prop :=
  (∃ h, format_size (SInt s)
        = Return (Float.fixed2 h ++ " " ++ unit_name (band s)) ∧
        Z.abs (h * 1024 ^ band s - 100 * s) ≤ 1024 ^ band s) ∧
  format_size (SInt s) ≠ Return "N/A".

(** ** Sample data for the concrete runs *)

Module Sample.

Definition mp4_1mib : Dict :=
  list_to_map [("format_id", SStr "18"); ("ext", SStr "mp4");
               ("resolution", SStr "640x360"); ("filesize", SInt 1048576)].
Definition no_ext : Dict :=
  list_to_map [("format_id", SStr "sb0"); ("filesize", SInt 4096)].
Definition empty_ext : Dict :=
  list_to_map [("format_id", SStr "sb1"); ("ext", SStr EmptyString)].
Definition webm_unsized : Dict :=
  list_to_map [("format_id", SStr "251"); ("ext", SStr "webm")].

Definition good_info : Info :=
  mkInfo (list_to_map [("id", SStr "abc"); ("title", SStr "Clip");
                       ("ext", SStr "mp4"); ("duration_string", SStr "0:10")])
         (Some [mp4_1mib; no_ext; empty_ext; webm_unsized]).

(** An entry for which the engine reports no title. *)
Definition untitled_info : Info :=
  mkInfo (list_to_map [("id", SStr "xyz"); ("ext", SStr "webm")])
         (Some [mp4_1mib; webm_unsized]).

Definition chunk1 : Chunk := [Byte.x00; Byte.x01].
Definition chunk2 : Chunk := [Byte.x02].

(** An engine with the attributes of a [yt_dlp.YoutubeDL] object that
    matter here: it has [extract_info] and [download], and neither a
    [YoutubeDL] nor a [stream] attribute. *)
Definition engine : Engine :=
  mkEngine
    (λ _ url,
       if decide (url = SStr "good-locator") then Return good_info
       else if decide (url = SStr "untitled-locator") then Return untitled_info
       else Raise (DownloadError "ERROR: Unsupported URL"))
    (λ attr, bool_decide (attr ∈ ["params"; "extract_info"; "download";
                                  "process_info"; "close"]))
    (λ _ _, ([chunk1; chunk2], Return ())).

(** The same engine, were a [YoutubeDL] object to expose a [YoutubeDL]
    constructor and a [stream] method. *)
Definition streaming_engine : Engine :=
  mkEngine (extract_info engine) (λ _, true) (stream engine).

Definition download_request (url : string) : Dict :=
  list_to_map [("type", SStr "download"); ("url", SStr url)].

(** A manager in which ["client-1"] is registered with websocket 1. *)
Definition world : World :=
  mkWorld {[ "client-1" := 1%nat ]} [].

End Sample.

(** ** The registry contract of the specification *)

(** A [connect] of [ws] under an id that is already registered is rejected
    and the table keeps the existing registration. *)
Definition rejects_duplicate (ws : WebSocket) (i : string) (w : World) : Prop :=
  is_Some (active_connections w !! i) →
  (∃ e, fst (connect ws i w) = Raise e) ∧
  active_connections (snd (connect ws i w)) !! i = active_connections w !! i.

(** An upstream format entry is kept when its ['ext'] is truthy. *)
Definition has_ext (f : Dict) : Prop := truthy (py_get f "ext") = true.

#[global] Instance has_ext_dec f : Decision (has_ext f).
Proof. unfold has_ext. apply _. Defined.

(** ** The tracked-retrieval contracts of the specification *)





(** ** [GET /api/info] (main.py, lines 133-137) *)

Record JSONResponse := mkJSONResponse { content : VideoInfo.t }.

Definition get_info (engine : Engine) (url : string) : M JSONResponse :=
  info ← get_video_info engine (SStr url);
  mret (mkJSONResponse info).

(** ** Whole sessions of [websocket_endpoint] *)

(** How the loop body ends on the message [data]. *)
Definition message_outcome (engine : Engine) (data : Dict) : Outcome unit :=
  if decide (py_get data "type" = SStr "download") then
    match get_video_info_result engine (py_get data "url") with
    | Return _ => Return ()
    | Raise e => Raise e
    end
  else Return ().

(** The effects of the loop body on the message [data] when the client is
    registered with [ws]. *)
Definition message_effects (engine : Engine) (ws : WebSocket) (data : Dict)
    : list Effect :=
  if decide (py_get data "type" = SStr "download") then
    (progress_run ws
     ++ EExtractInfo self_ydl_opts (py_get data "url")
     :: match get_video_info_result engine (py_get data "url") with
        | Return info => [ESendJson ws (complete_message info)]
        | Raise _ => []
        end)%list
  else [].


(** An upstream entry and the entry that [get_video_info] builds from it. *)
Definition describes (f : Dict) (v : Variant.t) : Prop :=
  Variant.format_id v = py_get f "format_id" ∧
  Variant.ext v = py_get f "ext" ∧
  Variant.resolution v = py_get_default f "resolution" (SStr "N/A") ∧
  Variant.filesize v = py_get f "filesize" ∧
  format_size (py_get f "filesize") = Return (Variant.filesize_fmt v) ∧
  Variant.note v = py_get_default f "format_note" (SStr "N/A").

(** The size of an upstream entry can be formatted. *)
Definition size_formats (f : Dict) : Prop :=
  ∃ sz, format_size (py_get f "filesize") = Return sz.

(** ** A registration lost to a second session under the same id *)



(** ** Titles that do not fit a response header *)

Module HeaderSample.

(** U+4E2D U+6587, as UTF-8. *)
Definition wide_title : string :=
  String "228" (String "184" (String "173"
    (String "230" (String "150" (String "135" EmptyString))))).

Definition engine : Engine :=
  mkEngine
    (λ _ url,
       if decide (url = SStr "null-title") then
         Return (mkInfo {[ "title" := SNone; "ext" := SStr "mp4" ]} None)
       else
         Return (mkInfo {[ "title" := SStr wide_title; "ext" := SStr "mp4" ]}
                   None))
    (instance_has_attr Sample.engine)
    (stream Sample.engine).

End HeaderSample.

(** * Properties *)

(** ** Steps of the monad *)

Lemma record_record w es1 es2 :
  record (record w es1) es2 = record w (es1 ++ es2).
Proof. unfold record; simpl. by rewrite <- app_assoc. Qed.

Lemma record_nil w : record w [] = w.
Proof. destruct w. unfold record; simpl. by rewrite app_nil_r. Qed.

Lemma perform_run e w : perform e w = (Return (), record w [e]).
Proof. reflexivity. Qed.

(** ** The Channel Registry *)

Lemma connect_run ws i w :
  connect ws i w
  = (Return (), mkWorld (<[i := ws]> (active_connections w))
                        (trace w ++ [EAccept ws])).
Proof. reflexivity. Qed.

Lemma disconnect_run i w :
  disconnect i w
  = (Return (), mkWorld (delete i (active_connections w)) (trace w)).
Proof.
  unfold disconnect, mbind, M_bind, get_connections; simpl.
  destruct (active_connections w !! i) eqn:E; simpl.
  - reflexivity.
  - rewrite delete_id by done. by destruct w.
Qed.

Lemma send_progress_registered i ws m w :
  active_connections w !! i = Some ws →
  send_progress i m w = (Return (), record w [ESendJson ws m]).
Proof.
  intros H. unfold send_progress, mbind, M_bind, get_connections; simpl.
  by rewrite H.
Qed.

Lemma send_progress_unregistered i m w :
  active_connections w !! i = None →
  send_progress i m w = (Return (), w).
Proof.
  intros H. unfold send_progress, mbind, M_bind, get_connections; simpl.
  by rewrite H.
Qed.

(** A registry operation never raises. *)
Lemma run_op_returns op w : fst (run_op op w) = Return ().
Proof.
  destruct op; cbn [run_op]; [by rewrite connect_run | by rewrite disconnect_run].
Qed.

Lemma for_cons {A} (x : A) xs body w w' :
  body x w = (Return (), w') → for_ (x :: xs) body w = for_ xs body w'.
Proof. intros H. simpl. unfold mbind, M_bind. by rewrite H. Qed.

(** After a history, the table holds for [i] what its most recent
    operation put there, and what it held before when there is none. *)
Lemma table_after_history i ops w :
  fst (for_ ops run_op w) = Return () ∧
  active_connections (snd (for_ ops run_op w)) !! i
  = match most_recent_op i ops with
    | Some (OpConnect ws _) => Some ws
    | Some (OpDisconnect _) => None
    | None => active_connections w !! i
    end.
Proof.
  revert w. induction ops as [|op ops IH]; intros w; [done|].
  pose proof (run_op_returns op w) as Hr.
  destruct (run_op op w) as [o w1] eqn:E; simpl in Hr; subst o.
  rewrite (for_cons _ _ _ _ _ E). destruct (IH w1) as [IH1 IH2].
  split; [done|]. rewrite IH2; simpl.
  destruct (most_recent_op i ops) as [o|]; [done|].
  destruct op as [ws j|j]; cbn [run_op op_id] in *.
  - rewrite connect_run in E. injection E as <-. simpl.
    case_decide; subst; [by rewrite lookup_insert_eq | by rewrite lookup_insert_ne].
  - rewrite disconnect_run in E. injection E as <-. simpl.
    case_decide; subst; [by rewrite lookup_delete_eq | by rewrite lookup_delete_ne].
Qed.

(** C1, as the specification states it, fails: with ["client-1"] registered
    to websocket 1, connecting websocket 2 under the same id is accepted
    and the table then maps the id to websocket 2. *)
Lemma connect_duplicate_not_rejected :
  ¬ rejects_duplicate 2%nat "client-1" Sample.world.
Proof.
  intros H. destruct H as [[e He] _]; [by eexists|].
  rewrite connect_run in He. discriminate He.
Qed.

(** C1 (amended): a [connect] under an id that is already registered
    succeeds and replaces the registered websocket by the new one (the last
    write wins); the registrations under all other ids are unchanged. *)
Theorem connect_replaces_registration ws_old ws_new (i : string) (w : World) :
  active_connections w !! i = Some ws_old →
  fst (connect ws_new i w) = Return () ∧
  active_connections (snd (connect ws_new i w)) !! i = Some ws_new ∧
  ∀ j, j ≠ i →
    active_connections (snd (connect ws_new i w)) !! j
    = active_connections w !! j.
Proof.
  intros _. rewrite connect_run; simpl. split; [done|]. split.
  - apply lookup_insert_eq.
  - intros j Hj. by apply lookup_insert_ne.
Qed.

Lemma connect_replaces_registration_witness :
  active_connections Sample.world !! "client-1" = Some 1%nat ∧
  active_connections (snd (connect 2%nat "client-1" Sample.world)) !! "client-1"
  = Some 2%nat.
Proof.
  split; [reflexivity|].
  apply (connect_replaces_registration 1%nat 2%nat "client-1" Sample.world).
  reflexivity.
Defined.

(** C2: after any history of [connect] and [disconnect] on a fresh manager,
    [send_progress i e] never raises; it writes [e] to websocket [ws]
    exactly when the most recent operation on [i] is the [connect] of [ws]
    (so no [disconnect] of [i] came after it), and it changes nothing when
    the most recent operation on [i] is not a [connect]. *)
Theorem send_progress_iff_connected
    (ops : list RegistryOp) (i : string) (e : Message) (tr : list Effect) :
  let w := snd (for_ ops run_op (fresh_manager tr)) in
  fst (send_progress i e w) = Return () ∧
  (∀ ws, snd (send_progress i e w) = record w [ESendJson ws e]
         ↔ most_recent_op i ops = Some (OpConnect ws i)) ∧
  ((∀ ws, most_recent_op i ops ≠ Some (OpConnect ws i)) →
   snd (send_progress i e w) = w).
Proof.
  intros w.
  destruct (table_after_history i ops (fresh_manager tr)) as [_ Ht].
  fold w in Ht. simpl in Ht. rewrite lookup_empty in Ht.
  assert (Hid : ∀ o, most_recent_op i ops = Some o → op_id o = i).
  { clear. induction ops as [|op ops IH]; intros o; simpl; [done|].
    destruct (most_recent_op i ops); [by intros [= <-]; apply IH|].
    case_decide; [by intros [= <-] | done]. }
  destruct (most_recent_op i ops) as [[ws j|j]|] eqn:E.
  - assert (j = i) as -> by apply (Hid _ eq_refl).
    rewrite (send_progress_registered _ _ _ _ Ht); simpl.
    split; [done|]. split.
    + intros ws'. split.
      * unfold record. intros [= H]. apply app_inj_tail in H as [_ [= ->]]. done.
      * by intros [= ->].
    + intros H. by destruct (H ws).
  - rewrite (send_progress_unregistered _ _ _ Ht); simpl.
    split; [done|]. split; [|done].
    intros ws. split; [|done].
    unfold record. destruct w as [t tr']; simpl. intros [= H].
    apply (f_equal length) in H. rewrite length_app in H. simpl in H. lia.
  - rewrite (send_progress_unregistered _ _ _ Ht); simpl.
    split; [done|]. split; [|done].
    intros ws. split; [|done].
    unfold record. destruct w as [t tr']; simpl. intros [= H].
    apply (f_equal length) in H. rewrite length_app in H. simpl in H. lia.
Qed.

(** ** The size formatter *)

Lemma of_int_exact s :
  1 ≤ s < 2 ^ 53 → Float.of_int s = Return (Float.mk s 1).
Proof.
  intros Hs. unfold Float.of_int, Float.round53.
  assert (Z.abs s = s) as -> by lia.
  assert (Z.sgn s = 1) as -> by lia.
  destruct (Z.leb_spec (2 ^ 1024 - 2 ^ 970) s) as [H|_].
  - assert (2 ^ 53 < 2 ^ 1024 - 2 ^ 970) by (vm_compute; reflexivity). lia.
  - destruct (Z.ltb_spec s (2 ^ 53)) as [_|H]; [|lia].
    by rewrite Z.mul_1_l.
Qed.

Lemma format_2f_nonneg n d :
  0 ≤ n →
  Float.format_2f (Float.mk n d)
  = Float.fixed2 (Float.round_half_even (100 * n) d).
Proof.
  intros Hn. unfold Float.format_2f, Float.hundredths; simpl.
  destruct (Z.ltb_spec n 0) as [H|_]; [lia|].
  by assert (Z.abs n = n) as -> by lia.
Qed.

(** Rounding to the nearest integer is within one unit of the quotient. *)
Lemma round_half_even_close a b :
  0 < b → Z.abs (Float.round_half_even a b * b - a) ≤ b.
Proof.
  intros Hb. unfold Float.round_half_even.
  pose proof (Z.div_mod a b ltac:(lia)) as Hdm.
  pose proof (Z.mod_pos_bound a b Hb) as Hr.
  destruct (_ || _); nia.
Qed.

Lemma string_of_Z_head z :
  ∃ c rest, string_of_Z z = String c rest ∧ c ≠ "N"%char.
Proof.
  unfold string_of_Z, NilZero.string_of_int.
  destruct (Z.to_int z) as [d|d].
  - destruct d; simpl; eexists _, _; (split; [reflexivity | discriminate]).
  - eexists _, _; (split; [reflexivity | discriminate]).
Qed.

Lemma fixed2_not_placeholder h u :
  Float.fixed2 h ++ " " ++ u ≠ "N/A".
Proof.
  unfold Float.fixed2.
  destruct (string_of_Z_head (h / 100)) as (c & rest & -> & Hc).
  simpl. intros [= H]. by apply Hc.
Qed.

(** The loop stops in the band of [s] and renders [s / 1024^k] there. *)
Lemma format_size_loop_band s :
  0 ≤ s →
  format_size_loop ["B"; "KB"; "MB"; "GB"] (Float.mk s 1)
  = Float.fixed2 (Float.round_half_even (100 * s) (1024 ^ band s))
    ++ " " ++ unit_name (band s).
Proof.
  intros Hs. unfold band.
  cbn [format_size_loop]. unfold Float.lt_1024, Float.div_1024.
  cbn [Float.fnum Float.fden].
  change (1024 * 1) with 1024.
  change (1024 * (1 * 1024)) with (1024 ^ 2).
  change (1024 * (1 * 1024 * 1024)) with (1024 ^ 3).
  change (1024 * (1 * 1024 * 1024 * 1024)) with (1024 ^ 4).
  destruct (s <? 1024); [by rewrite format_2f_nonneg|].
  destruct (s <? 1024 ^ 2); [by rewrite format_2f_nonneg|].
  destruct (s <? 1024 ^ 3); [by rewrite format_2f_nonneg|].
  destruct (s <? 1024 ^ 4); by rewrite format_2f_nonneg.
Qed.

(** C7, as the specification states it, fails at the size 0: the formatter
    answers with the placeholder for a size that is present. *)
Lemma format_size_zero_is_placeholder : ¬ formats_in_band 0.
Proof. intros [_ H]. by apply H. Qed.

(** Beyond 53 bits the conversion to a double rounds: for [10^30] bytes the
    rendering is off by more than a hundredth. *)
Remark format_size_rounds_large :
  format_size (SInt (10 ^ 30))
  = Return (Float.fixed2 90949470177292825600 ++ " TB") ∧
  1024 ^ 4 < Z.abs (90949470177292825600 * 1024 ^ 4 - 100 * 10 ^ 30).
Proof. split; vm_compute; reflexivity. Qed.

(** C7 (amended): for every size [s] with [1 <= s < 2^53] the formatter
    returns a rendering with two fractional digits in the base-1024 band of
    [s] (B below 1024, then KB, MB, GB, and TB from [1024^4] on) whose
    number is within 0.01 of [s / 1024^k], and not the placeholder; it
    returns ["N/A"] for an absent size and for the size 0, and
    ["1.00 MB"] for 1,048,576 bytes. *)
Theorem format_size_in_band (s : Z) :
  1 ≤ s < 2 ^ 53 →
  formats_in_band s ∧
  format_size SNone = Return "N/A" ∧
  format_size (SInt 0) = Return "N/A" ∧
  format_size (SInt 1048576) = Return "1.00 MB".
Proof.
  intros Hs. split; [|by vm_compute].
  assert (Hf : format_size (SInt s)
               = Return (Float.fixed2 (Float.round_half_even (100 * s) (1024 ^ band s))
                         ++ " " ++ unit_name (band s))).
  { unfold format_size. cbn [truthy].
    destruct (Z.eqb_spec s 0) as [->|_]; [lia|]. cbn [negb].
    rewrite of_int_exact by done. by rewrite format_size_loop_band by lia. }
  split.
  - eexists; split; [exact Hf|].
    apply round_half_even_close. unfold band.
    repeat (destruct (_ <? _)); done.
  - rewrite Hf. intros [= H]. by apply fixed2_not_placeholder in H.
Qed.

Lemma format_size_in_band_witness :
  format_size (SInt 1048576) = Return "1.00 MB" ∧ formats_in_band 1048576.
Proof.
  split; [vm_compute; reflexivity|].
  apply (format_size_in_band 1048576). split; [lia|reflexivity].
Defined.

(** ** The Metadata Service *)

Lemma collect_formats_kept fs acc out :
  collect_formats fs acc = Return out →
  ∃ vs, out = (acc ++ vs)%list ∧
        map Variant.ext vs = map (λ f, py_get f "ext") (filter has_ext fs) ∧
        map Variant.format_id vs
        = map (λ f, py_get f "format_id") (filter has_ext fs).
Proof.
  revert acc out. induction fs as [|f fs IH]; intros acc out; simpl.
  - intros [= <-]. exists []. by rewrite app_nil_r.
  - destruct (truthy (py_get f "ext")) eqn:E.
    + rewrite filter_cons_True by done.
      destruct (format_size (py_get f "filesize")) as [sz|e]; [|done].
      cbn [mbind Outcome_bind]. intros H.
      apply IH in H as (vs & -> & H1 & H2).
      eexists (_ :: vs). rewrite <- app_assoc. split; [done|].
      simpl. by rewrite H1, H2.
    + rewrite filter_cons_False by (unfold has_ext; congruence).
      apply IH.
Qed.

Lemma get_video_info_run engine url w :
  get_video_info engine url w
  = (get_video_info_result engine url,
     record w [EExtractInfo self_ydl_opts url]).
Proof.
  unfold get_video_info, get_video_info_result, try_except, ydl_extract_info.
  unfold mbind at 1 2 3. unfold M_bind, lift, raise. rewrite perform_run.
  destruct (extract_info engine self_ydl_opts url) as [info|e]; [|done].
  cbn [mbind Outcome_bind]. unfold video_info_of.
  destruct (collect_formats _ _) as [fs|e]; done.
Qed.

(** C9: whenever [get_video_info] returns, every entry of the returned
    ['formats'] list has a truthy, hence non-empty, ['ext']: the list
    holds, in order, exactly the upstream entries whose ['ext'] is neither
    missing nor falsy, so it is never longer than the upstream list. *)
Theorem returned_formats_have_ext engine url w md w' :
  get_video_info engine url w = (Return md, w') →
  ∃ info,
    extract_info engine self_ydl_opts url = Return info ∧
    map Variant.ext (VideoInfo.formats md)
    = map (λ f, py_get f "ext")
          (filter has_ext (default [] (formats_field info))) ∧
    map Variant.format_id (VideoInfo.formats md)
    = map (λ f, py_get f "format_id")
          (filter has_ext (default [] (formats_field info))) ∧
    Forall (λ v, truthy (Variant.ext v) = true ∧
                 Variant.ext v ≠ SNone ∧
                 Variant.ext v ≠ SStr EmptyString)
           (VideoInfo.formats md) ∧
    (length (VideoInfo.formats md)
     ≤ length (default [] (formats_field info)))%nat.
Proof.
  rewrite get_video_info_run. intros [= H _].
  unfold get_video_info_result in H.
  destruct (extract_info engine self_ydl_opts url) as [info|e]; [|done].
  exists info. split; [done|].
  cbn [mbind Outcome_bind] in H. unfold video_info_of in H.
  destruct (collect_formats _ _) as [vs|e] eqn:E; [|done].
  cbn [mbind Outcome_bind] in H. injection H as <-. simpl.
  apply collect_formats_kept in E as (vs' & -> & H1 & H2). simpl.
  split; [done|]. split; [done|]. split.
  - assert (Ht : Forall (λ x, truthy x = true) (map Variant.ext vs')).
    { rewrite H1. apply Forall_map, Forall_forall.
      intros f Hf. by apply list_elem_of_filter in Hf as [Hf _]. }
    apply Forall_map in Ht. eapply Forall_impl; [exact Ht|].
    intros v Hv; simpl in Hv. split; [done|].
    split; intros Heq; rewrite Heq in Hv; discriminate.
  - rewrite <- (length_map Variant.ext), H1, length_map.
    apply length_filter.
Qed.

(** For the sample engine two of the four upstream entries are dropped. *)
Lemma returned_formats_have_ext_witness :
  ∃ md w',
    get_video_info Sample.engine (SStr "good-locator") Sample.world
    = (Return md, w') ∧
    length (VideoInfo.formats md) = 2%nat ∧
    length (default [] (formats_field Sample.good_info)) = 4%nat ∧
    Forall (λ v, truthy (Variant.ext v) = true ∧
                 Variant.ext v ≠ SNone ∧
                 Variant.ext v ≠ SStr EmptyString)
           (VideoInfo.formats md).
Proof.
  eexists _, _. split; [vm_compute; reflexivity|].
  split; [reflexivity|]. split; [reflexivity|].
  pose proof (returned_formats_have_ext Sample.engine (SStr "good-locator")
                Sample.world _ _ eq_refl) as (info & _ & _ & _ & H & _).
  exact H.
Defined.

(** ** The Streaming Delivery Pipeline *)

Lemma download_video_run engine url fmt w :
  download_video engine url fmt w
  = (match extract_info engine (download_ydl_opts fmt) url with
     | Return info =>
         match fields info !! "title", fields info !! "ext" with
         | Some title, Some ext =>
             match StreamingResponse_init
                     (generate engine (download_ydl_opts fmt) url)
                     (if decide (ext = SStr "mp4")
                      then "video/mp4" else "application/octet-stream")
                     [("Content-Disposition",
                       SStr ("attachment; filename=" ++ dquote
                             ++ (py_str title ++ "." ++ py_str ext)
                             ++ dquote));
                      ("X-Video-Title", title)] with
             | Return resp => Return resp
             | Raise e =>
                 Raise (HTTPException 400 ("Download error: " ++ exn_str e))
             end
         | None, _ =>
             Raise (HTTPException 400
                      ("Download error: " ++ exn_str (KeyError "title")))
         | Some _, None =>
             Raise (HTTPException 400
                      ("Download error: " ++ exn_str (KeyError "ext")))
         end
     | Raise e => Raise (HTTPException 400 ("Download error: " ++ exn_str e))
     end,
     record w [EExtractInfo (download_ydl_opts fmt) url]).
Proof.
  unfold download_video, try_except, ydl_extract_info.
  unfold mbind at 1 2 3 4. unfold M_bind, lift, raise. rewrite perform_run.
  destruct (extract_info engine (download_ydl_opts fmt) url) as [info|e];
    [|done].
  unfold py_getitem, py_get, py_get_default.
  destruct (fields info !! "title") as [title|]; [|done].
  destruct (fields info !! "ext") as [ext|]; [|done].
  cbn [default]. by destruct (StreamingResponse_init _ _ _).
Qed.

(** C5: when the engine's [extract_info] fails, [download_video] fails with
    the 400 [HTTPException] that carries the upstream reason, right after
    the call to the engine; no response object, hence no header and no body
    chunk, is produced. *)
Theorem download_fails_before_response engine url fmt e w :
  extract_info engine (download_ydl_opts fmt) url = Raise e →
  download_video engine url fmt w
  = (Raise (HTTPException 400 ("Download error: " ++ exn_str e)),
     record w [EExtractInfo (download_ydl_opts fmt) url]) ∧
  ∀ resp, fst (download_video engine url fmt w) ≠ Return resp.
Proof.
  intros H. rewrite download_video_run, H. done.
Qed.

Lemma download_fails_before_response_witness :
  download_video Sample.engine (SStr "bad-locator") SNone Sample.world
  = (Raise (HTTPException 400 "Download error: ERROR: Unsupported URL"),
     record Sample.world
       [EExtractInfo (download_ydl_opts SNone) (SStr "bad-locator")]).
Proof.
  apply (download_fails_before_response Sample.engine (SStr "bad-locator")
           SNone (DownloadError "ERROR: Unsupported URL") Sample.world).
  reflexivity.
Defined.

(** C6: the framing of a response that [download_video] returns is a
    function of the resolved metadata: the disposition header is
    [attachment] with the filename [title.ext] in quotes, the content type
    is [video/mp4] when ['ext'] is ["mp4"] and [application/octet-stream]
    otherwise, and the [X-Video-Title] header carries the title. *)
Theorem response_framing engine url fmt w resp w' :
  download_video engine url fmt w = (Return resp, w') →
  ∃ info title ext,
    extract_info engine (download_ydl_opts fmt) url = Return info ∧
    fields info !! "title" = Some title ∧
    fields info !! "ext" = Some ext ∧
    headers resp
    = [("Content-Disposition",
        SStr ("attachment; filename=" ++ dquote
              ++ (py_str title ++ "." ++ py_str ext) ++ dquote));
       ("X-Video-Title", title)] ∧
    media_type resp
    = (if decide (ext = SStr "mp4")
       then "video/mp4" else "application/octet-stream").
Proof.
  rewrite download_video_run. intros [= H _].
  destruct (extract_info engine (download_ydl_opts fmt) url) as [info|e];
    [|done].
  destruct (fields info !! "title") as [title|] eqn:Et; [|done].
  destruct (fields info !! "ext") as [ext|] eqn:Ee; [|done].
  unfold StreamingResponse_init in H.
  destruct (Latin1.encode_headers _); [|done].
  cbn [mbind Outcome_bind] in H.
  injection H as <-. by exists info, title, ext.
Qed.

Lemma response_framing_witness :
  ∃ resp w',
    download_video Sample.engine (SStr "good-locator") (SStr "best")
      Sample.world = (Return resp, w') ∧
    media_type resp = "video/mp4" ∧
    headers resp
    = [("Content-Disposition",
        SStr ("attachment; filename=" ++ dquote ++ "Clip.mp4" ++ dquote));
       ("X-Video-Title", SStr "Clip")].
Proof.
  eexists _, _. split; [vm_compute; reflexivity|].
  pose proof (response_framing Sample.engine (SStr "good-locator")
                (SStr "best") Sample.world _ _ eq_refl)
    as (info & title & ext & _ & _ & _ & _ & _).
  split; reflexivity.
Defined.

(** Were the two attribute lookups of [generate] to resolve, the body would
    yield the upstream chunks unchanged and in order, and end as the
    upstream iteration ends. *)
Lemma yield_each_id upstream : yield_each upstream = upstream.
Proof. induction upstream as [|c cs IH]; simpl; by rewrite ?IH. Qed.

Lemma generate_relays engine opts url :
  instance_has_attr engine "YoutubeDL" = true →
  instance_has_attr engine "stream" = true →
  generate engine opts url = stream engine opts url.
Proof.
  intros H1 H2. unfold generate. rewrite H1, H2, yield_each_id.
  by destruct (stream engine opts url).
Qed.

(** On a [YoutubeDL] object without a [YoutubeDL] attribute the body raises
    on its first step and yields nothing. *)
Lemma generate_without_attribute engine opts url :
  instance_has_attr engine "YoutubeDL" = false →
  generate engine opts url = ([], Raise (no_attribute "YoutubeDL")).
Proof. intros H. unfold generate. by rewrite H. Qed.

Example streaming_engine_relays :
  generate Sample.streaming_engine (download_ydl_opts SNone)
    (SStr "good-locator")
  = ([Sample.chunk1; Sample.chunk2], Return ()).
Proof. reflexivity. Qed.

(** C8 does not hold of the code: for the sample engine, whose stream
    handle would produce two chunks, [download_video] returns a response
    whose body yields no chunk and ends in the [AttributeError] of the
    lookup [ydl.YoutubeDL]. *)
Theorem response_body_yields_no_chunk :
  ∃ resp w',
    download_video Sample.engine (SStr "good-locator") SNone Sample.world
    = (Return resp, w') ∧
    fst (stream Sample.engine (download_ydl_opts SNone) (SStr "good-locator"))
    = [Sample.chunk1; Sample.chunk2] ∧
    body_iterator resp = ([], Raise (no_attribute "YoutubeDL")).
Proof.
  eexists _, _. split; [vm_compute; reflexivity|]. split; reflexivity.
Qed.

(** ** The tracked retrieval of [websocket_endpoint] *)

Lemma tick_run i ws k w :
  active_connections w !! i = Some ws →
  tick i k w = (Return (), record w [ESleep; ESendJson ws (tick_message k)]).
Proof.
  intros H. unfold tick. unfold mbind, M_bind. rewrite perform_run.
  rewrite (send_progress_registered i ws) by done. by rewrite record_record.
Qed.

Lemma ticks_run i ws ks w :
  active_connections w !! i = Some ws →
  for_ ks (tick i) w = (Return (), record w (tick_effects ws ks)).
Proof.
  revert w. induction ks as [|k ks IH]; intros w H.
  - simpl. by rewrite record_nil.
  - rewrite (for_cons _ _ _ _ _ (tick_run i ws k w H)).
    rewrite IH by done. by rewrite record_record.
Qed.

(** The whole run of the loop body on a download message, for a client
    registered with [ws]. *)
Lemma on_message_run engine i ws data w :
  py_get data "type" = SStr "download" →
  active_connections w !! i = Some ws →
  on_message engine i data w
  = (match get_video_info_result engine (py_get data "url") with
     | Return _ => Return ()
     | Raise e => Raise e
     end,
     record w
       (progress_run ws
        ++ EExtractInfo self_ydl_opts (py_get data "url")
        :: match get_video_info_result engine (py_get data "url") with
           | Return info => [ESendJson ws (complete_message info)]
           | Raise _ => []
           end)).
Proof.
  intros Hty Hreg. unfold on_message. rewrite decide_True by done.
  unfold mbind at 1. unfold M_bind at 1.
  rewrite (send_progress_registered i ws) by done.
  unfold mbind at 1. unfold M_bind at 1.
  rewrite (ticks_run i ws) by done.
  unfold mbind at 1. unfold M_bind at 1.
  rewrite get_video_info_run.
  destruct (get_video_info_result engine (py_get data "url")) as [info|e].
  - rewrite (send_progress_registered i ws) by done.
    rewrite !record_record. reflexivity.
  - rewrite !record_record. reflexivity.
Qed.

Lemma ticks_unregistered (i : string) ks w :
  active_connections w !! i = None →
  for_ ks (tick i) w = (Return (), record w (flat_map (λ _, [ESleep]) ks)).
Proof.
  revert w. induction ks as [|k ks IH]; intros w H.
  - simpl. by rewrite record_nil.
  - assert (Hk : tick i k w = (Return (), record w [ESleep])).
    { unfold tick, mbind, M_bind. rewrite perform_run.
      by rewrite send_progress_unregistered. }
    rewrite (for_cons _ _ _ _ _ Hk). rewrite IH by done.
    by rewrite record_record.
Qed.

Lemma on_message_unregistered_run engine (i : string) (data : Dict) w :
  py_get data "type" = SStr "download" →
  active_connections w !! i = None →
  on_message engine i data w
  = (match get_video_info_result engine (py_get data "url") with
     | Return _ => Return ()
     | Raise e => Raise e
     end,
     record w (replicate 10 ESleep
               ++ [EExtractInfo self_ydl_opts (py_get data "url")])).
Proof.
  intros Hty Hreg.
  unfold on_message. rewrite decide_True by done.
  unfold mbind at 1. unfold M_bind at 1.
  rewrite send_progress_unregistered by done.
  unfold mbind at 1. unfold M_bind at 1.
  rewrite ticks_unregistered by done.
  unfold mbind at 1. unfold M_bind at 1.
  rewrite get_video_info_run.
  destruct (get_video_info_result engine (py_get data "url")) as [info|e].
  - rewrite send_progress_unregistered by done.
    by rewrite !record_record.
  - by rewrite !record_record.
Qed.

Lemma sent_to_app ws tr1 tr2 :
  sent_to ws (tr1 ++ tr2) = (sent_to ws tr1 ++ sent_to ws tr2)%list.
Proof. apply omap_app. Qed.











(** Scenario D on the sample engine: the events of a whole session. *)
Example scenario_d :
  events_seen 1%nat
    (trace (snd (websocket_endpoint Sample.engine 1%nat "client-1"
                   [Sample.download_request "good-locator"]
                   (fresh_manager []))))
  = [Started; Progress 10; Progress 20; Progress 30; Progress 40;
     Progress 50; Progress 60; Progress 70; Progress 80; Progress 90;
     Progress 100;
     Completed [("title", SStr "Clip"); ("duration", SStr "0:10");
                ("formats", SInt 2)]].
Proof. vm_compute. reflexivity. Qed.

Lemma get_video_info_result_raise engine url e :
  extract_info engine self_ydl_opts url = Raise e →
  get_video_info_result engine url
  = Raise (HTTPException 400 ("Error getting video info: " ++ exn_str e)).
Proof. intros H. unfold get_video_info_result. by rewrite H. Qed.


(** The run of the loop body when the engine's extraction fails. *)
Lemma on_message_failure_run engine (i : string) ws (data : Dict) w e :
  py_get data "type" = SStr "download" →
  active_connections w !! i = Some ws →
  extract_info engine self_ydl_opts (py_get data "url") = Raise e →
  on_message engine i data w
  = (Raise (HTTPException 400 ("Error getting video info: " ++ exn_str e)),
     record w (progress_run ws
               ++ [EExtractInfo self_ydl_opts (py_get data "url")])).
Proof.
  intros Hty Hreg He.
  rewrite (on_message_run engine i ws) by done.
  by rewrite (get_video_info_result_raise _ _ _ He).
Qed.



(** The exception leaves [websocket_endpoint] itself: only
    [WebSocketDisconnect] is handled there, so the client stays in the
    table. *)
Lemma endpoint_failure_escapes engine ws (i : string) (data : Dict) rest w e :
  py_get data "type" = SStr "download" →
  extract_info engine self_ydl_opts (py_get data "url") = Raise e →
  fst (websocket_endpoint engine ws i (data :: rest) w)
  = Raise (HTTPException 400 ("Error getting video info: " ++ exn_str e)) ∧
  active_connections (snd (websocket_endpoint engine ws i (data :: rest) w))
    !! i = Some ws.
Proof.
  intros Hty He.
  pose proof (on_message_failure_run engine i ws data
                (mkWorld (<[i:=ws]> (active_connections w))
                         (trace w ++ [EAccept ws])) e Hty
                (lookup_insert_eq _ _ _) He) as Hrun.
  assert (Heq : websocket_endpoint engine ws i (data :: rest) w
                = (Raise (HTTPException 400
                            ("Error getting video info: " ++ exn_str e)),
                   record (mkWorld (<[i:=ws]> (active_connections w))
                                   (trace w ++ [EAccept ws]))
                     (progress_run ws
                      ++ [EExtractInfo self_ydl_opts (py_get data "url")]))).
  { unfold websocket_endpoint.
    unfold mbind at 1. unfold M_bind at 1. rewrite connect_run.
    unfold try_except. cbn [receive_loop].
    unfold mbind at 1. unfold M_bind at 1. by rewrite Hrun. }
  rewrite Heq. simpl. split; [done|]. apply lookup_insert_eq.
Qed.




(** * Further properties of the code *)

(** ** The registry: [disconnect] and its composition with [connect] *)

(** X1: [disconnect] never raises and leaves the trace alone; afterwards
    the id is unregistered and every other registration is as before, and
    on an id that is not registered it changes nothing at all, so a second
    [disconnect] is a no-op. *)
Theorem disconnect_idempotent (i : string) (w : World) :
  fst (disconnect i w) = Return () ∧
  trace (snd (disconnect i w)) = trace w ∧
  active_connections (snd (disconnect i w)) !! i = None ∧
  (∀ j, j ≠ i →
     active_connections (snd (disconnect i w)) !! j
     = active_connections w !! j) ∧
  (active_connections w !! i = None → snd (disconnect i w) = w) ∧
  disconnect i (snd (disconnect i w)) = (Return (), snd (disconnect i w)).
Proof.
  assert (Habs : ∀ w0, active_connections w0 !! i = None →
                       disconnect i w0 = (Return (), w0)).
  { intros w0 H. rewrite disconnect_run, delete_id by done. by destruct w0. }
  rewrite disconnect_run; simpl.
  split; [done|]. split; [done|]. split; [apply lookup_delete_eq|].
  split; [intros j Hj; by apply lookup_delete_ne|].
  split.
  - intros H. rewrite delete_id by done. by destruct w.
  - apply Habs. simpl. apply lookup_delete_eq.
Qed.

(** X2: registering a fresh id and disconnecting it again restores the
    table; the only thing left is the [accept] in the trace. *)
Theorem connect_disconnect_round_trip ws (i : string) (w : World) :
  active_connections w !! i = None →
  (connect ws i;; disconnect i) w = (Return (), record w [EAccept ws]).
Proof.
  intros H. unfold mbind, M_bind. rewrite connect_run, disconnect_run.
  simpl. unfold record. by rewrite delete_insert_id.
Qed.

Lemma connect_disconnect_round_trip_witness :
  (connect 2%nat "client-2";; disconnect "client-2") Sample.world
  = (Return (), record Sample.world [EAccept 2%nat]).
Proof.
  apply (connect_disconnect_round_trip 2%nat "client-2" Sample.world).
  reflexivity.
Defined.

(** X3: a history of [connect] and [disconnect] operations none of which
    names [i] leaves the registration of [i] as it was, from any table. *)
Theorem history_frame (ops : list RegistryOp) (i : string) (w : World) :
  Forall (λ op, op_id op ≠ i) ops →
  active_connections (snd (for_ ops run_op w)) !! i
  = active_connections w !! i.
Proof.
  intros Hops. destruct (table_after_history i ops w) as [_ ->].
  assert (most_recent_op i ops = None) as ->; [|done].
  induction Hops as [|op ops Hop _ IH]; [done|]. simpl.
  rewrite IH. by rewrite decide_False.
Qed.

Lemma history_frame_witness :
  active_connections
    (snd (for_ [OpConnect 2%nat "client-2"; OpDisconnect "client-3"] run_op
            Sample.world)) !! "client-1"
  = Some 1%nat.
Proof.
  etrans; [|reflexivity].
  apply (history_frame [OpConnect 2%nat "client-2"; OpDisconnect "client-3"]
           "client-1" Sample.world).
  repeat constructor; discriminate.
Defined.

(** ** The size formatter beyond the stated bands *)

Lemma overflow_bound_pos : 2 ^ 53 < 2 ^ 1024 - 2 ^ 970.
Proof. vm_compute. reflexivity. Qed.

(** X4: [format_size] raises in exactly two cases: on a non-empty string
    (a [TypeError]) and on an int whose magnitude is at least
    [2^1024 - 2^970] (an [OverflowError]); on [None], booleans, the empty
    string and every other int it returns a text. *)
Theorem format_size_raises_iff (v : Scalar) :
  (∃ e, format_size v = Raise e) ↔
  (∃ s, v = SStr s ∧ s ≠ EmptyString) ∨
  (∃ n, v = SInt n ∧ 2 ^ 1024 - 2 ^ 970 ≤ Z.abs n).
Proof.
  pose proof overflow_bound_pos as Hb.
  destruct v as [|b|n|s]; unfold format_size; cbn [truthy].
  - split; [intros [e He]; discriminate He|].
    intros [(s & H & _)|(n & H & _)]; discriminate H.
  - split.
    + intros [e He]. destruct b; discriminate He.
    + intros [(s & H & _)|(n & H & _)]; discriminate H.
  - destruct (Z.eqb_spec n 0) as [->|Hn]; cbn [negb].
    + split; [intros [e He]; discriminate He|].
      intros [(s & H & _)|(n & [= <-] & H)]; [discriminate H|].
      simpl in H. lia.
    + unfold Float.of_int.
      destruct (Z.leb_spec (2 ^ 1024 - 2 ^ 970) (Z.abs n)) as [H|H].
      * split; [intros _; right; by exists n | by eexists].
      * split; [intros [e He]; discriminate He|].
        intros [(s & H' & _)|(m & [= <-] & H')]; [discriminate H'|lia].
  - destruct (String.eqb_spec s EmptyString) as [->|Hs]; cbn [negb].
    + split; [intros [e He]; discriminate He|].
      intros [(s & [= <-] & H)|(n & H & _)]; [done|discriminate H].
    + split; [intros _; left; by exists s | by eexists].
Qed.

Lemma round_half_even_unit a : Float.round_half_even a 1 = a.
Proof.
  unfold Float.round_half_even. rewrite Z.div_1_r, Z.mod_1_r. reflexivity.
Qed.

(** X5: a non-zero int below 1024 (negative ones included, down to
    [-2^53]) is rendered exactly, in bytes: the text is the sign, the
    magnitude with the fraction [.00], and the unit B.  A negative size is
    never scaled to a larger unit. *)
Theorem format_size_bytes_exact (s : Z) :
  - 2 ^ 53 < s < 1024 → s ≠ 0 →
  format_size (SInt s)
  = Return ((if s <? 0 then "-" else EmptyString)
            ++ Float.fixed2 (100 * Z.abs s) ++ " B").
Proof.
  intros Hs Hne. pose proof overflow_bound_pos as Hb.
  unfold format_size. cbn [truthy].
  destruct (Z.eqb_spec s 0) as [|_]; [done|]. cbn [negb].
  unfold Float.of_int, Float.round53.
  destruct (Z.leb_spec (2 ^ 1024 - 2 ^ 970) (Z.abs s)) as [H|_]; [lia|].
  destruct (Z.ltb_spec (Z.abs s) (2 ^ 53)) as [_|H]; [|lia].
  assert (Z.sgn s * Z.abs s = s) as -> by (destruct s; simpl; lia).
  cbn [format_size_loop]. unfold Float.lt_1024. cbn [Float.fnum Float.fden].
  destruct (Z.ltb_spec s (1024 * 1)) as [_|H]; [|lia].
  unfold Float.format_2f, Float.hundredths. cbn [Float.fnum Float.fden].
  rewrite round_half_even_unit.
  destruct (s <? 0); reflexivity.
Qed.

Lemma format_size_bytes_exact_witness :
  format_size (SInt (-2048)) = Return "-2048.00 B".
Proof.
  apply (format_size_bytes_exact (-2048)); [split; reflexivity | discriminate].
Defined.

(** Rounding to 53 bits never takes a size of a tebibyte or more below a
    tebibyte. *)
Lemma round53_keeps_tb s : 1024 ^ 4 ≤ s → 1024 ^ 4 ≤ Float.round53 s.
Proof.
  intros Hs. unfold Float.round53.
  destruct (Z.ltb_spec s (2 ^ 53)) as [_|H53]; [done|].
  assert (Hlog : 53 ≤ Z.log2 s) by (by apply Z.log2_le_pow2; lia).
  set (e := Z.log2 s - 52).
  assert (He : 0 < 2 ^ e) by (apply Z.pow_pos_nonneg; lia).
  assert (Hq : 2 ^ 52 ≤ s / 2 ^ e).
  { apply Z.div_le_lower_bound; [done|].
    rewrite Z.mul_comm, <- Z.pow_add_r by lia.
    replace (52 + e) with (Z.log2 s) by lia.
    apply Z.log2_spec. lia. }
  assert (1024 ^ 4 ≤ 2 ^ 52) by (vm_compute; discriminate).
  destruct (_ || _); nia.
Qed.

(** X6: every size from [1024^4] bytes up to the overflow bound is
    rendered in TB, with a number of at least 1.00: there is no larger
    unit, and the rounding of the conversion to a double does not change
    the unit. *)
Theorem format_size_large_is_tb (s : Z) :
  1024 ^ 4 ≤ s < 2 ^ 1024 - 2 ^ 970 →
  ∃ h, format_size (SInt s) = Return (Float.fixed2 h ++ " TB") ∧ 100 ≤ h.
Proof.
  intros [Hlo Hhi]. pose proof (round53_keeps_tb s Hlo) as HR.
  assert (H4 : 1024 ^ 4 = 1099511627776) by reflexivity.
  rewrite H4 in Hlo, HR.
  unfold format_size. cbn [truthy].
  destruct (Z.eqb_spec s 0) as [|_]; [lia|]. cbn [negb].
  unfold Float.of_int.
  assert (Z.abs s = s) as -> by lia.
  assert (Z.sgn s = 1) as -> by lia.
  destruct (Z.leb_spec (2 ^ 1024 - 2 ^ 970) s) as [H|_]; [lia|].
  rewrite Z.mul_1_l. set (R := Float.round53 s) in *.
  cbn [format_size_loop]. unfold Float.lt_1024, Float.div_1024.
  cbn [Float.fnum Float.fden].
  change (1024 * 1) with 1024.
  change (1024 * (1 * 1024)) with 1048576.
  change (1024 * (1 * 1024 * 1024)) with 1073741824.
  change (1024 * (1 * 1024 * 1024 * 1024)) with 1099511627776.
  change (1 * 1024 * 1024 * 1024 * 1024) with 1099511627776.
  destruct (Z.ltb_spec R 1024) as [H|_]; [lia|].
  destruct (Z.ltb_spec R 1048576) as [H|_]; [lia|].
  destruct (Z.ltb_spec R 1073741824) as [H|_]; [lia|].
  destruct (Z.ltb_spec R 1099511627776) as [H|_]; [lia|].
  rewrite format_2f_nonneg by lia.
  eexists. split; [reflexivity|].
  unfold Float.round_half_even.
  assert (100 ≤ 100 * R / 1099511627776)
    by (apply Z.div_le_lower_bound; lia).
  destruct (_ || _); lia.
Qed.

Lemma format_size_large_is_tb_witness :
  ∃ h, format_size (SInt (1024 ^ 5)) = Return (Float.fixed2 h ++ " TB")
       ∧ 100 ≤ h.
Proof.
  apply (format_size_large_is_tb (1024 ^ 5)).
  split; [discriminate | reflexivity].
Defined.

(** X7: in the bands KB, MB and GB the number shown lies between 1.00 and
    1024.00: rounding can reach the upper end (1,048,575 bytes are shown
    as 1024.00 KB) but never passes it. *)
Theorem format_size_scaled_range (s : Z) :
  1024 ≤ s < 1024 ^ 4 →
  ∃ h, format_size (SInt s)
       = Return (Float.fixed2 h ++ " " ++ unit_name (band s)) ∧
       1 ≤ band s ≤ 3 ∧ 100 ≤ h ≤ 102400.
Proof.
  intros [Hlo Hhi].
  assert (H4 : 1024 ^ 4 = 1099511627776) by reflexivity. rewrite H4 in Hhi.
  exists (Float.round_half_even (100 * s) (1024 ^ band s)). split.
  { unfold format_size. cbn [truthy].
    destruct (Z.eqb_spec s 0) as [|_]; [lia|]. cbn [negb].
    rewrite of_int_exact by (split; [lia|]; change (2 ^ 53) with 9007199254740992; lia).
    by rewrite format_size_loop_band by lia. }
  assert (Hband : 1 ≤ band s ≤ 3 ∧ 1024 ^ band s ≤ s < 1024 * 1024 ^ band s).
  { unfold band.
    destruct (Z.ltb_spec s 1024) as [H|_]; [lia|].
    change (1024 ^ 2) with 1048576. change (1024 ^ 3) with 1073741824.
    rewrite H4.
    destruct (Z.ltb_spec s 1048576) as [H|H];
      [change (1024 ^ 1) with 1024; lia|].
    destruct (Z.ltb_spec s 1073741824) as [H'|H'];
      [change (1024 ^ 2) with 1048576; lia|].
    destruct (Z.ltb_spec s 1099511627776) as [H''|H'']; [|lia].
    change (1024 ^ 3) with 1073741824. lia. }
  destruct Hband as [Hk [Hd1 Hd2]]. split; [done|].
  set (d := 1024 ^ band s) in *.
  assert (Hd : 0 < d) by (apply Z.pow_pos_nonneg; lia).
  unfold Float.round_half_even.
  assert (100 ≤ 100 * s / d) by (apply Z.div_le_lower_bound; lia).
  assert (100 * s / d < 102400) by (apply Z.div_lt_upper_bound; lia).
  destruct (_ || _); lia.
Qed.

Lemma format_size_scaled_range_witness :
  format_size (SInt 1048575) = Return "1024.00 KB" ∧
  ∃ h, format_size (SInt 1048575)
       = Return (Float.fixed2 h ++ " " ++ unit_name (band 1048575)) ∧
       1 ≤ band 1048575 ≤ 3 ∧ 100 ≤ h ≤ 102400.
Proof.
  split; [vm_compute; reflexivity|].
  apply (format_size_scaled_range 1048575). split; [discriminate|reflexivity].
Defined.

(** ** The metadata path: [get_video_info] and [GET /api/info] *)

Lemma collect_formats_describes fs acc out :
  collect_formats fs acc = Return out →
  ∃ vs, out = (acc ++ vs)%list ∧ Forall2 describes (filter has_ext fs) vs.
Proof.
  revert acc out. induction fs as [|f fs IH]; intros acc out; simpl.
  - intros [= <-]. exists []. rewrite app_nil_r. split; [done|constructor].
  - destruct (truthy (py_get f "ext")) eqn:E.
    + rewrite filter_cons_True by done.
      destruct (format_size (py_get f "filesize")) as [sz|e] eqn:Es; [|done].
      cbn [mbind Outcome_bind]. intros H.
      apply IH in H as (vs & -> & H).
      eexists (_ :: vs). rewrite <- app_assoc. split; [done|].
      constructor; [|done]. by repeat split.
    + rewrite filter_cons_False by (unfold has_ext; congruence).
      apply IH.
Qed.

Lemma collect_formats_returns_iff fs acc :
  (∃ out, collect_formats fs acc = Return out) ↔
  Forall size_formats (filter has_ext fs).
Proof.
  revert acc. induction fs as [|f fs IH]; intros acc; simpl.
  - split; [constructor | by eexists].
  - destruct (truthy (py_get f "ext")) eqn:E.
    + rewrite filter_cons_True by done.
      destruct (format_size (py_get f "filesize")) as [sz|e] eqn:Es;
        cbn [mbind Outcome_bind].
      * rewrite IH. split.
        -- intros H. constructor; [by exists sz | done].
        -- intros H. apply Forall_cons_1 in H as [_ H]. exact H.
      * split; [intros [out H]; discriminate H|].
        intros H. apply Forall_cons_1 in H as [[sz Hsz] _]. congruence.
    + rewrite filter_cons_False by (unfold has_ext; congruence).
      apply IH.
Qed.

Lemma get_info_run engine url w :
  get_info engine url w
  = (match get_video_info_result engine (SStr url) with
     | Return info => Return (mkJSONResponse info)
     | Raise e => Raise e
     end,
     record w [EExtractInfo self_ydl_opts (SStr url)]).
Proof.
  unfold get_info, mbind, M_bind. rewrite get_video_info_run.
  by destruct (get_video_info_result engine (SStr url)).
Qed.

(** X8: [GET /api/info] answers with the metadata exactly when the engine
    returns an [info] and the size of every upstream entry that has an
    ['ext'] can be formatted; every other outcome is the 400
    [HTTPException] whose detail starts with [Error getting video info: ],
    so one entry with an unformattable size fails the whole request.  In
    both cases the engine is asked once and the connection table is not
    touched. *)
Theorem get_info_succeeds_iff engine (url : string) (w : World) :
  ((∃ resp, fst (get_info engine url w) = Return resp) ↔
   ∃ info,
     extract_info engine self_ydl_opts (SStr url) = Return info ∧
     Forall size_formats
       (filter has_ext (default [] (formats_field info)))) ∧
  (∀ e, fst (get_info engine url w) = Raise e →
        ∃ reason,
          e = HTTPException 400 ("Error getting video info: " ++ reason)) ∧
  snd (get_info engine url w)
  = record w [EExtractInfo self_ydl_opts (SStr url)].
Proof.
  rewrite get_info_run. cbn [fst snd]. unfold get_video_info_result.
  destruct (extract_info engine self_ydl_opts (SStr url)) as [info|e0];
    cbn [mbind Outcome_bind].
  - unfold video_info_of.
    pose proof (collect_formats_returns_iff
                  (default [] (formats_field info)) []) as Hiff.
    destruct (collect_formats (default [] (formats_field info)) [])
      as [vs|e1]; cbn [mbind Outcome_bind].
    + split; [|split; [intros e He; discriminate He | done]].
      split; [|by eexists].
      intros _. exists info. split; [done|]. apply Hiff. by eexists.
    + split; [|split; [|done]].
      * split; [intros [resp H]; discriminate H|].
        intros (info' & [= <-] & H). apply Hiff in H as [out H].
        discriminate H.
      * intros e [= <-]. by eexists.
  - split; [|split; [|done]].
    + split; [intros [resp H]; discriminate H|].
      intros (info & H & _). discriminate H.
    + intros e [= <-]. by eexists.
Qed.

(** X9: every entry of the ['formats'] list that [get_video_info] returns
    is built from one upstream entry with a truthy ['ext'], in the upstream
    order: it copies ['format_id'], ['ext'] and ['filesize'], takes
    ['resolution'] and ['format_note'] with the default ["N/A"] when the
    upstream entry lacks them, and its ['filesize_fmt'] is [format_size] of
    its ['filesize']. *)
Theorem returned_formats_describe_upstream engine url w md w' :
  get_video_info engine url w = (Return md, w') →
  ∃ info,
    extract_info engine self_ydl_opts url = Return info ∧
    Forall2 describes
      (filter has_ext (default [] (formats_field info)))
      (VideoInfo.formats md) ∧
    Forall (λ v, format_size (Variant.filesize v)
                 = Return (Variant.filesize_fmt v))
           (VideoInfo.formats md).
Proof.
  rewrite get_video_info_run. intros [= H _].
  unfold get_video_info_result in H.
  destruct (extract_info engine self_ydl_opts url) as [info|e]; [|done].
  exists info. split; [done|].
  cbn [mbind Outcome_bind] in H. unfold video_info_of in H.
  destruct (collect_formats _ _) as [vs|e] eqn:E; [|done].
  cbn [mbind Outcome_bind] in H. injection H as <-. simpl.
  apply collect_formats_describes in E as (vs' & -> & HF). simpl.
  split; [done|].
  clear -HF. induction HF as [|f v fs vs Hfv _ IH]; constructor; [|done].
  destruct Hfv as (_ & _ & _ & Hsz & Hfmt & _). by rewrite Hsz.
Qed.

Lemma returned_formats_describe_upstream_witness :
  ∃ md w',
    get_video_info Sample.engine (SStr "good-locator") Sample.world
    = (Return md, w') ∧
    map Variant.filesize_fmt (VideoInfo.formats md) = ["1.00 MB"; "N/A"] ∧
    map Variant.resolution (VideoInfo.formats md)
    = [SStr "640x360"; SStr "N/A"] ∧
    Forall (λ v, format_size (Variant.filesize v)
                 = Return (Variant.filesize_fmt v))
           (VideoInfo.formats md).
Proof.
  eexists _, _. split; [vm_compute; reflexivity|].
  split; [reflexivity|]. split; [reflexivity|].
  pose proof (returned_formats_describe_upstream Sample.engine
                (SStr "good-locator") Sample.world _ _ eq_refl)
    as (info & _ & _ & H).
  exact H.
Defined.

(** ** The download path: [download_video] *)

(** X10: [download_video] returns a response exactly when the engine
    returns an [info] that has both a ['title'] and an ['ext'] key and the
    two header values encode as latin-1: the disposition text, and the
    title, which must then be a [str] without a code point above 255.
    Every other outcome is the 400 [HTTPException] whose detail starts with
    [Download error: ].  For an [info] without ['title'] the detail names
    the key ['title'], for one with a title and without ['ext'] it names
    ['ext'], and for a title that is [None] it is the [AttributeError] of
    the missing [encode]. *)
Theorem download_video_succeeds_iff engine url fmt (w : World) :
  ((∃ resp, fst (download_video engine url fmt w) = Return resp) ↔
   ∃ info title ext,
     extract_info engine (download_ydl_opts fmt) url = Return info ∧
     fields info !! "title" = Some title ∧
     fields info !! "ext" = Some ext ∧
     Latin1.encode
       (SStr ("attachment; filename=" ++ dquote
              ++ (py_str title ++ "." ++ py_str ext) ++ dquote))
     = Return () ∧
     Latin1.encode title = Return ()) ∧
  (∀ e, fst (download_video engine url fmt w) = Raise e →
        ∃ reason, e = HTTPException 400 ("Download error: " ++ reason)) ∧
  (∀ info,
     extract_info engine (download_ydl_opts fmt) url = Return info →
     fields info !! "title" = None →
     fst (download_video engine url fmt w)
     = Raise (HTTPException 400
                ("Download error: " ++ squote ++ "title" ++ squote))) ∧
  (∀ info,
     extract_info engine (download_ydl_opts fmt) url = Return info →
     is_Some (fields info !! "title") →
     fields info !! "ext" = None →
     fst (download_video engine url fmt w)
     = Raise (HTTPException 400
                ("Download error: " ++ squote ++ "ext" ++ squote))) ∧
  (∀ info ext,
     extract_info engine (download_ydl_opts fmt) url = Return info →
     fields info !! "title" = Some SNone →
     fields info !! "ext" = Some ext →
     Latin1.encode
       (SStr ("attachment; filename=" ++ dquote
              ++ ("None" ++ "." ++ py_str ext) ++ dquote))
     = Return () →
     fst (download_video engine url fmt w)
     = Raise (HTTPException 400
                "Download error: 'NoneType' object has no attribute 'encode'")).
Proof.
  rewrite download_video_run. cbn [fst].
  destruct (extract_info engine (download_ydl_opts fmt) url) as [info|e0].
  - destruct (fields info !! "title") as [title|] eqn:Et;
      [destruct (fields info !! "ext") as [ext|] eqn:Ee|].
    + unfold StreamingResponse_init.
      cbn [Latin1.encode_headers mbind Outcome_bind].
      destruct (Latin1.encode (SStr _)) as [[]|e1] eqn:E1;
        cbn [mbind Outcome_bind];
        [destruct (Latin1.encode title) as [[]|e2] eqn:E2;
           cbn [mbind Outcome_bind]|].
      * split; [|split; [intros e He; discriminate He|]].
        { split; [|by eexists]. intros _. by exists info, title, ext. }
        split; [intros info' [= <-] H; congruence|].
        split; [intros info' [= <-] _ H; congruence|].
        intros info' ext' [= <-] Ht' Hx' _.
        rewrite Et in Ht'. injection Ht' as ->. simpl in E2. discriminate E2.
      * split; [|split; [intros e [= <-]; by eexists|]].
        { split; [intros [resp H]; discriminate H|].
          intros (info' & t' & x' & [= <-] & Ht' & Hx' & _ & H).
          rewrite Et in Ht'. injection Ht' as <-. congruence. }
        split; [intros info' [= <-] H; congruence|].
        split; [intros info' [= <-] _ H; congruence|].
        intros info' ext' [= <-] Ht' Hx' _.
        rewrite Et in Ht'. injection Ht' as ->.
        simpl in E2. by injection E2 as <-.
      * split; [|split; [intros e [= <-]; by eexists|]].
        { split; [intros [resp H]; discriminate H|].
          intros (info' & t' & x' & [= <-] & Ht' & Hx' & H & _).
          rewrite Et in Ht'. injection Ht' as <-.
          rewrite Ee in Hx'. injection Hx' as <-. congruence. }
        split; [intros info' [= <-] H; congruence|].
        split; [intros info' [= <-] _ H; congruence|].
        intros info' ext' [= <-] Ht' Hx' H.
        rewrite Et in Ht'. injection Ht' as ->.
        rewrite Ee in Hx'. injection Hx' as ->.
        cbn [py_str] in E1. congruence.
    + split; [|split; [intros e [= <-]; by eexists|]].
      * split; [intros [resp H]; discriminate H|].
        intros (info' & t' & x' & [= <-] & _ & H & _). congruence.
      * split; [intros info' [= <-] H; congruence|].
        split; [intros info' [= <-] _ _; reflexivity|].
        intros info' ext' [= <-] _ H. congruence.
    + split; [|split; [intros e [= <-]; by eexists|]].
      * split; [intros [resp H]; discriminate H|].
        intros (info' & t' & x' & [= <-] & H & _). congruence.
      * split; [intros info' [= <-] _; reflexivity|].
        split; [intros info' [= <-] [x Hx]; congruence|].
        intros info' ext' [= <-] H. congruence.
  - split; [|split; [intros e [= <-]; by eexists|]].
    + split; [intros [resp H]; discriminate H|].
      intros (info & t & x & H & _). discriminate H.
    + split; [intros info H; discriminate H|].
      split; [intros info H; discriminate H|].
      intros info ext H. discriminate H.
Qed.

(** A null title and a title outside latin-1 both end in the 400. *)
Example download_video_null_title :
  fst (download_video HeaderSample.engine (SStr "null-title") SNone
         Sample.world)
  = Raise (HTTPException 400
      "Download error: 'NoneType' object has no attribute 'encode'").
Proof. vm_compute. reflexivity. Qed.

Example download_video_wide_title :
  fst (download_video HeaderSample.engine (SStr "wide-title") SNone
         Sample.world)
  = Raise (HTTPException 400
      "Download error: 'latin-1' codec can't encode characters in position 22-23: ordinal not in range(256)").
Proof. vm_compute. reflexivity. Qed.

(** X11: whatever the outcome, [download_video] asks the engine once, for
    the given url, and does nothing else: the connection table is
    untouched.  The options of that call carry the requested format under
    ['format'], and ["best"] when the format is [None] or the empty
    string. *)
Theorem download_video_asks_once engine url fmt (w : World) :
  snd (download_video engine url fmt w)
  = record w [EExtractInfo (download_ydl_opts fmt) url] ∧
  download_ydl_opts fmt !! "format"
  = Some (if truthy fmt then fmt else SStr "best") ∧
  download_ydl_opts SNone !! "format" = Some (SStr "best") ∧
  download_ydl_opts (SStr EmptyString) !! "format" = Some (SStr "best").
Proof.
  rewrite download_video_run. split; [done|].
  split; [|split; reflexivity].
  unfold download_ydl_opts, py_or. reflexivity.
Qed.

(** ** Whole sessions of [websocket_endpoint] *)

Lemma on_message_registered engine (i : string) ws (data : Dict) w :
  active_connections w !! i = Some ws →
  on_message engine i data w
  = (message_outcome engine data,
     record w (message_effects engine ws data)).
Proof.
  intros Hreg. unfold message_outcome, message_effects.
  destruct (decide (py_get data "type" = SStr "download")) as [Hty|Hty].
  - rewrite (on_message_run engine i ws) by done.
    by destruct (get_video_info_result engine (py_get data "url")).
  - unfold on_message. rewrite decide_False by done.
    by rewrite record_nil.
Qed.

(** X12: when the client id is not in the table (its registration was
    removed while the session is still open), a download message is still
    worked through: the ten half-second sleeps are taken and the engine is
    asked for the url, but no message is written to any websocket, not
    even the completion. *)
Theorem on_message_unregistered engine (i : string) (data : Dict) w :
  py_get data "type" = SStr "download" →
  active_connections w !! i = None →
  on_message engine i data w
  = (match get_video_info_result engine (py_get data "url") with
     | Return _ => Return ()
     | Raise e => Raise e
     end,
     record w (replicate 10 ESleep
               ++ [EExtractInfo self_ydl_opts (py_get data "url")])) ∧
  ∀ ws, sent_to ws (trace (snd (on_message engine i data w)))
        = sent_to ws (trace w).
Proof.
  intros Hty Hreg.
  pose proof (on_message_unregistered_run engine i data w Hty Hreg) as Hrun.
  split; [exact Hrun|]. intros ws. rewrite Hrun. cbn [snd record trace].
  rewrite sent_to_app. apply app_nil_r.
Qed.

Lemma on_message_unregistered_witness :
  on_message Sample.engine "client-9"
    (Sample.download_request "good-locator") Sample.world
  = (Return (),
     record Sample.world
       (replicate 10 ESleep
        ++ [EExtractInfo self_ydl_opts (SStr "good-locator")])).
Proof.
  apply (on_message_unregistered Sample.engine "client-9"
           (Sample.download_request "good-locator") Sample.world);
    reflexivity.
Defined.

(** X13: handling a message never changes the connection table, whatever
    the message, the engine's answer and the state of the table. *)
Theorem on_message_keeps_table engine (i : string) (data : Dict) w :
  active_connections (snd (on_message engine i data w))
  = active_connections w.
Proof.
  destruct (active_connections w !! i) as [ws|] eqn:Hreg.
  - by rewrite (on_message_registered engine i ws).
  - destruct (decide (py_get data "type" = SStr "download")) as [Hty|Hty].
    + by rewrite (on_message_unregistered_run engine i data w Hty Hreg).
    + unfold on_message. by rewrite decide_False.
Qed.

(** X14: the ['format'] field of a download message has no effect: the
    handler reads it and never uses it, so the run is the same whatever
    format the client asks for. *)
Theorem on_message_ignores_format engine (i : string) (data : Dict) v w :
  on_message engine i (<["format" := v]> data) w = on_message engine i data w.
Proof.
  unfold on_message, py_get.
  rewrite !lookup_insert_ne by discriminate. reflexivity.
Qed.


Lemma receive_loop_clean engine (i : string) ws inbox w :
  active_connections w !! i = Some ws →
  Forall (λ data, message_outcome engine data = Return ()) inbox →
  receive_loop engine i inbox w
  = (Raise WebSocketDisconnect,
     record w (flat_map (message_effects engine ws) inbox)).
Proof.
  intros Hreg Hok. revert w Hreg.
  induction Hok as [|data inbox Hd _ IH]; intros w Hreg.
  - simpl. unfold raise. by rewrite record_nil.
  - cbn [receive_loop flat_map]. unfold mbind at 1. unfold M_bind at 1.
    rewrite (on_message_registered engine i ws) by done. rewrite Hd.
    rewrite IH by done. by rewrite record_record.
Qed.


(** X15: a session in which no download fails (every message is either not
    a download or one whose metadata is obtained) ends normally once the
    peer has gone: the websocket is accepted, the messages are handled in
    order, then the id is removed from the table and the disconnect line is
    printed.  The id is unregistered afterwards even when another websocket
    had been registered under it before the session began. *)
Theorem session_ends_cleanly engine ws (i : string) (inbox : list Dict) w :
  Forall (λ data, message_outcome engine data = Return ()) inbox →
  websocket_endpoint engine ws i inbox w
  = (Return (),
     mkWorld (delete i (active_connections w))
       (trace w
        ++ EAccept ws
        :: flat_map (message_effects engine ws) inbox
        ++ [EPrint ("Client " ++ i ++ " disconnected")])).
Proof.
  intros Hok. unfold websocket_endpoint.
  unfold mbind at 1. unfold M_bind at 1. rewrite connect_run.
  unfold try_except.
  rewrite (receive_loop_clean engine i ws) by (done || apply lookup_insert_eq).
  unfold mbind at 1. unfold M_bind at 1. rewrite disconnect_run.
  rewrite perform_run. unfold record. cbn [active_connections trace].
  rewrite delete_insert_eq. f_equal. f_equal.
  rewrite <- !app_assoc. reflexivity.
Qed.

Lemma session_ends_cleanly_witness :
  active_connections
    (snd (websocket_endpoint Sample.engine 2%nat "client-1"
            [Sample.download_request "good-locator"] Sample.world))
    !! "client-1" = None.
Proof.
  rewrite (session_ends_cleanly Sample.engine 2%nat "client-1"
             [Sample.download_request "good-locator"] Sample.world).
  - reflexivity.
  - repeat constructor.
Defined.










